(** * pushwrappers: Pushover notification wrappers

    A shallow embedding of [pushwrappers/__init__.py]: the duration
    formatter [sec_to_hms], the decorators [push_exceptions] and
    [push_success], and the class [PushContext].

    Python code is modelled in a state-and-exception monad: a
    computation takes a state and gives back an outcome (a returned
    value or a raised exception) together with the state reached, so
    that mutations made before an exception is raised are kept. *)

From Stdlib Require Import ZArith QArith Qround Qabs Lia Ascii String DecimalString.
From stdpp Require Import base list strings.

Local Open Scope Z_scope.

(** ** Exceptions *)

Inductive exc_class :=
  | ValueError | TypeError | AttributeError | IndexError
  | RecursionError | SystemError
  | KeyboardInterrupt | SystemExit | GeneratorExit
  | OtherException (name : string)       (* any other subclass of Exception *)
  | OtherBaseException (name : string)   (* derives from BaseException only *)
  | Unmodelled.                          (* behaviour outside this model *)

Record exn := Exn { exc_type : exc_class; exc_str : string }.

(** [isinstance(e, Exception)]: what an [except Exception] clause matches. *)
Definition isinstance_Exception (e : exn) : bool :=
  match exc_type e with
  | KeyboardInterrupt | SystemExit | GeneratorExit
  | OtherBaseException _ | Unmodelled => false
  | _ => true
  end.

Inductive outcome (A : Type) :=
  | Return (a : A)
  | Raise (e : exn).
Arguments Return {A} a.
Arguments Raise {A} e.

(** ** The monad *)

Definition M (S A : Type) : Type := S -> outcome A * S.

Definition ret {S A} (a : A) : M S A := fun s => (Return a, s).
Definition raise {S A} (e : exn) : M S A := fun s => (Raise e, s).
Definition bind {S A B} (c : M S A) (k : A -> M S B) : M S B :=
  fun s => match c s with
           | (Return a, s') => k a s'
           | (Raise e, s') => (Raise e, s')
           end.
Definition gets {S A} (f : S -> A) : M S A := fun s => (Return (f s), s).
Definition modify {S} (f : S -> S) : M S unit := fun s => (Return tt, f s).
Definition lift_outcome {S A} (o : outcome A) : M S A := fun s => (o, s).

(** [try: body / except <matches> as e: handler e]. *)
Definition try_except {S A} (body : M S A) (matches : exn -> bool)
    (handler : exn -> M S A) : M S A :=
  fun s => match body s with
           | (Return a, s') => (Return a, s')
           | (Raise e, s') => if matches e then handler e s' else (Raise e, s')
           end.

(** [try: body / finally: cleanup].  An exception raised by the cleanup
    replaces the one in flight. *)
Definition try_finally {S A} (body : M S A) (cleanup : M S unit) : M S A :=
  fun s => match body s with
           | (o, s') => match cleanup s' with
                        | (Return _, s'') => (o, s'')
                        | (Raise e, s'') => (Raise e, s'')
                        end
           end.

Declare Scope py_scope.
Delimit Scope py_scope with py.
Notation "'let*' x ':=' c 'in' k" := (bind c (fun x => k))
  (at level 10, x pattern, c at level 100, k at level 200) : py_scope.
Notation "c ';;' k" := (bind c (fun _ => k))
  (at level 100, k at level 200, right associativity) : py_scope.
Local Open Scope py_scope.

(** ** Floating point numbers

    The module only moves floats around: it subtracts two clock
    readings, splits a duration with [divmod] and prints.  The float
    type and these operations are an interface; everything proved below
    holds for every implementation of it. *)

Class FloatOps := {
  float : Type;
  float_of_Z : Z -> float;                        (* float(z) *)
  float_sub : float -> float -> float;            (* x - y *)
  float_divmod : float -> float -> float * float; (* divmod(x, y), y nonzero *)
  float_fixed : nat -> float -> string;           (* format(x, '.<p>f') *)
  float_repr : float -> string;                   (* str(x) *)
  timedelta_str : float -> string                 (* str(timedelta(seconds=x)) *)
}.

Section Python.
Context `{FloatOps}.

Inductive value :=
  | VNone
  | VInt (z : Z)
  | VFloat (x : float)
  | VStr (s : string)
  | VTimedelta (seconds : float)
  | VStream (id : nat)          (* a text stream object, by heap address *)
  | VClass (c : exc_class)
  | VExn (e : exn)
  | VTraceback.

Definition type_name (v : value) : string :=
  match v with
  | VNone => "NoneType" | VInt _ => "int" | VFloat _ => "float"
  | VStr _ => "str" | VTimedelta _ => "datetime.timedelta"
  | VStream _ => "_io.StringIO" | VClass _ => "type"
  | VExn _ => "BaseException" | VTraceback => "traceback"
  end.

(** Truth value of an object, as tested by [if] and [not]. *)
Definition truthy (v : value) : bool :=
  match v with
  | VNone => false
  | VStr s => negb (String.eqb s "")
  | VInt z => negb (z =? 0)
  | _ => true
  end.

(** ** Builtins: [str], [divmod], [-] *)

Definition str_int (z : Z) : string := NilZero.string_of_int (Z.to_int z).

Definition py_str (v : value) : outcome string :=
  match v with
  | VNone => Return "None"
  | VInt z => Return (str_int z)
  | VFloat x => Return (float_repr x)
  | VStr s => Return s
  | VTimedelta x => Return (timedelta_str x)
  | VExn e => Return (exc_str e)
  | _ => Raise (Exn Unmodelled "str of an object whose text holds its address")
  end.

Definition unsupported_operands (op : string) (a b : value) : exn :=
  Exn TypeError ("unsupported operand type(s) for " +:+ op +:+ ": '" +:+
                 type_name a +:+ "' and '" +:+ type_name b +:+ "'").

Definition zero_division (what : string) : exn := Exn (OtherException "ZeroDivisionError") what.

(** [divmod(a, b)] on ints and floats; Z.div and Z.modulo round towards
    minus infinity, as Python does. *)
Definition py_divmod (a b : value) : outcome (value * value) :=
  match a, b with
  | VInt x, VInt y =>
      if y =? 0 then Raise (zero_division "integer division or modulo by zero")
      else Return (VInt (x / y), VInt (x mod y))
  | VFloat x, VInt y =>
      if y =? 0 then Raise (zero_division "float divmod()")
      else let '(q, r) := float_divmod x (float_of_Z y) in Return (VFloat q, VFloat r)
  | _, _ => Raise (unsupported_operands "divmod()" a b)
  end.

(** [a - b] on floats; the module subtracts nothing else. *)
Definition py_sub (a b : value) : outcome value :=
  match a, b with
  | VFloat x, VFloat y => Return (VFloat (float_sub x y))
  | VFloat _, VNone | VNone, _ => Raise (unsupported_operands "-" a b)
  | _, _ => Raise (Exn Unmodelled "subtraction of other operands")
  end.

(** ** [str.format]

    The format-specification mini-language, for the sub-grammar
    [["0"][width]["." precision][type]] in which the literals of this
    module are written.  A specification outside it is [Unmodelled]. *)

Record format_spec := FormatSpec {
  zero_pad : bool;               (* "0" flag: sign-aware zero padding *)
  width : nat;                   (* 0 when absent *)
  precision : option nat;
  presentation : option ascii    (* the type code *)
}.

Definition is_digit (c : ascii) : bool :=
  let n := nat_of_ascii c in (48 <=? n)%nat && (n <=? 57)%nat.

Definition is_letter (c : ascii) : bool :=
  let n := nat_of_ascii c in
  ((65 <=? n)%nat && (n <=? 90)%nat) || ((97 <=? n)%nat && (n <=? 122)%nat).

(** Reads a run of decimal digits: the number read (if any digit was
    there) and the rest. *)
Fixpoint read_digits (s : string) (acc : option nat) : option nat * string :=
  match s with
  | String c rest =>
      if is_digit c
      then read_digits rest (Some (10 * default 0 acc + (nat_of_ascii c - 48))%nat)
      else (acc, s)
  | EmptyString => (acc, s)
  end.

Definition invalid_spec : exn := Exn ValueError "Invalid format specifier".

Definition parse_type (zp : bool) (w : nat) (p : option nat) (s : string)
  : outcome format_spec :=
  match s with
  | EmptyString => Return (FormatSpec zp w p None)
  | String c EmptyString =>
      if is_letter c || Ascii.eqb c "%" then Return (FormatSpec zp w p (Some c))
      else Raise (Exn Unmodelled "format specifier outside the modelled grammar")
  | _ => Raise (Exn Unmodelled "format specifier outside the modelled grammar")
  end.

Definition parse_precision (zp : bool) (w : nat) (s : string) : outcome format_spec :=
  match s with
  | String "." rest =>
      match read_digits rest None with
      | (Some p, rest') => parse_type zp w (Some p) rest'
      | (None, _) => Raise (Exn ValueError "Format specifier missing precision")
      end
  | _ => parse_type zp w None s
  end.

Definition parse_spec (s : string) : outcome format_spec :=
  let '(zp, s1) := match s with
                   | String "0" rest => (true, rest)
                   | _ => (false, s)
                   end in
  let '(w, s2) := read_digits s1 None in
  parse_precision zp (default 0%nat w) s2.

Fixpoint repeat_char (c : ascii) (n : nat) : string :=
  match n with O => EmptyString | S k => String c (repeat_char c k) end.

(** Pads a rendered number to [width]: zeros between the sign and the
    digits under the "0" flag, spaces on the left otherwise. *)
Definition pad_number (spec : format_spec) (s : string) : string :=
  let fill := (width spec - String.length s)%nat in
  if zero_pad spec then
    match s with
    | String "-" digits => String "-" (repeat_char "0" fill +:+ digits)
    | _ => repeat_char "0" fill +:+ s
    end
  else repeat_char " " fill +:+ s.

Definition unknown_code (c : ascii) (v : value) : exn :=
  Exn ValueError ("Unknown format code '" +:+ String c "" +:+
                  "' for object of type '" +:+ type_name v +:+ "'").

Definition is_float_code (c : ascii) : bool :=
  existsb (Ascii.eqb c) ["e"; "E"; "f"; "F"; "g"; "G"; "%"]%char.

Definition is_int_code (c : ascii) : bool :=
  existsb (Ascii.eqb c) ["b"; "c"; "d"; "o"; "x"; "X"; "n"]%char.

Definition format_float (spec : format_spec) (x : float) : outcome string :=
  match presentation spec with
  | Some "f"%char => Return (pad_number spec (float_fixed (default 6%nat (precision spec)) x))
  | _ => Raise (Exn Unmodelled "float presentation other than f")
  end.

(** [int.__format__] with a non-empty specification. *)
Definition format_int (spec : format_spec) (z : Z) : outcome string :=
  let code := default "d"%char (presentation spec) in
  if is_int_code code then
    match precision spec with
    | Some _ => Raise (Exn ValueError "Precision not allowed in integer format specifier")
    | None =>
        if Ascii.eqb code "d" then Return (pad_number spec (str_int z))
        else Raise (Exn Unmodelled "integer presentation other than d")
    end
  else if is_float_code code then format_float spec (float_of_Z z)
  else Raise (unknown_code code (VInt z)).

(** [format(v, spec)]: dispatch on the type of [v]. *)
Definition py_format (v : value) (spec : string) : outcome string :=
  match spec with
  | EmptyString => py_str v
  | _ =>
      match v with
      | VInt z =>
          match parse_spec spec with
          | Return sp => format_int sp z
          | Raise e => Raise e
          end
      | VFloat x =>
          match parse_spec spec with
          | Return sp =>
              match presentation sp with
              | Some c => if is_float_code c || Ascii.eqb c "n" then format_float sp x
                          else Raise (unknown_code c v)
              | None => Raise (Exn Unmodelled "float presentation other than f")
              end
          | Raise e => Raise e
          end
      | VStr _ => Raise (Exn Unmodelled "string with a format specifier")
      | _ => Raise (Exn TypeError ("unsupported format string passed to " +:+
                                   type_name v +:+ ".__format__"))
      end
  end.

Definition prepend (s : string) (o : outcome string) : outcome string :=
  match o with
  | Return t => Return (s +:+ t)
  | Raise e => Raise e
  end.

(** One left-to-right pass over the template.  [field] is [Some acc]
    inside a replacement field, [n] the index of the next positional
    argument.  Only automatically numbered fields, [{}] and [{:spec}],
    are modelled. *)
Fixpoint format_from (template : string) (field : option string) (n : nat)
    (args : list value) : outcome string :=
  match field with
  | Some acc =>
      match template with
      | EmptyString => Raise (Exn ValueError "expected '}' before end of string")
      | String "}" rest =>
          match args !! n with
          | None => Raise (Exn IndexError "Replacement index out of range for positional args tuple")
          | Some v =>
              let rendered :=
                match acc with
                | EmptyString => py_format v ""
                | String ":" spec => py_format v spec
                | _ => Raise (Exn Unmodelled "field name or conversion")
                end in
              match rendered with
              | Return s => prepend s (format_from rest None (S n) args)
              | Raise e => Raise e
              end
          end
      | String "{" _ => Raise (Exn Unmodelled "nested replacement field")
      | String c rest => format_from rest (Some (acc +:+ String c "")) n args
      end
  | None =>
      match template with
      | EmptyString => Return ""
      | String "{" (String "{" rest) => prepend "{" (format_from rest None n args)
      | String "{" rest => format_from rest (Some "") n args
      | String "}" (String "}" rest) => prepend "}" (format_from rest None n args)
      | String "}" _ => Raise (Exn ValueError "Single '}' encountered in format string")
      | String c rest => prepend (String c "") (format_from rest None n args)
      end
  end.

(** [template.format(a0, a1, ...)] with positional arguments [args]. *)
Definition str_format (template : string) (args : list value) : outcome string :=
  format_from template None 0 args.

(** ** [sec_to_hms] *)

Definition sec_to_hms (secs : value) : outcome string :=
  match py_divmod secs (VInt 60) with
  | Raise e => Raise e
  | Return (m, s) =>
      match py_divmod m (VInt 60) with
      | Raise e => Raise e
      | Return (h, m) => str_format "{:.02d}:{:02d}:{:02.0f}" [h; m; s]
      end
  end.

(** ** The process: streams, clock and Notifier

    Stream objects live in a heap, a list indexed by address, each
    entry holding the text the stream has received.  [sys.stdout] and
    [sys.stderr] are references into it.  [time.time()] takes the next
    reading of the wall clock.  The Notifier is the log of what
    [pushover.Client().send_message] was given; delivery is taken to
    succeed. *)

Record notification := Notification { message : string; title : string }.

Record world := World {
  streams : list string;
  sys_stdout : value;
  sys_stderr : value;
  wall_clock : nat -> float;
  reads : nat;
  sent : list notification
}.

Definition set_streams (l : list string) (w : world) : world :=
  World l (sys_stdout w) (sys_stderr w) (wall_clock w) (reads w) (sent w).
Definition set_sys_stdout (v : value) (w : world) : world :=
  World (streams w) v (sys_stderr w) (wall_clock w) (reads w) (sent w).
Definition set_sys_stderr (v : value) (w : world) : world :=
  World (streams w) (sys_stdout w) v (wall_clock w) (reads w) (sent w).
Definition set_reads (n : nat) (w : world) : world :=
  World (streams w) (sys_stdout w) (sys_stderr w) (wall_clock w) n (sent w).
Definition set_sent (l : list notification) (w : world) : world :=
  World (streams w) (sys_stdout w) (sys_stderr w) (wall_clock w) (reads w) l.

(** [time.time()] *)
Definition time_time : M world float :=
  fun w => (Return (wall_clock w (reads w)), set_reads (S (reads w)) w).

(** [StringIO()]: a new, empty stream at the next free address. *)
Definition StringIO : M world value :=
  fun w => (Return (VStream (length (streams w))), set_streams (streams w ++ [""]) w).

Definition no_attribute (v : value) (attr : string) : exn :=
  Exn AttributeError ("'" +:+ type_name v +:+ "' object has no attribute '" +:+ attr +:+ "'").

Definition dangling : exn := Exn SystemError "reference to no object".

(** [target.write(text)] *)
Definition stream_write (target : value) (text : string) : M world unit :=
  match target with
  | VStream i =>
      fun w => match streams w !! i with
               | Some old => (Return tt, set_streams (<[i := old +:+ text]> (streams w)) w)
               | None => (Raise dangling, w)
               end
  | _ => raise (no_attribute target "write")
  end.

(** [target.getvalue()] *)
Definition getvalue (target : value) : M world string :=
  match target with
  | VStream i =>
      fun w => match streams w !! i with
               | Some text => (Return text, w)
               | None => (Raise dangling, w)
               end
  | _ => raise (no_attribute target "getvalue")
  end.

(** [po.Client().send_message(msg, title=ttl)] *)
Definition send_message (msg ttl : string) : M world unit :=
  modify (fun w => set_sent (sent w ++ [Notification msg ttl]) w).

(** ** The decorators *)

Record call_args := CallArgs {
  positional : list value;
  keywords : list (string * value)
}.

(** A callable object: the name of its type, its [__module__] and
    [__name__] where it has them, and what a call does.  A function
    made by [def] has both attributes; a [functools.partial] object and
    an instance of a class with [__call__] have no [__name__]. *)
Record callable := Callable {
  fn_type : string;
  fn_module : option string;
  fn_name : option string;
  fn_call : call_args -> M world value
}.

Definition missing_attribute (fn : callable) (attr : string) : exn :=
  Exn AttributeError
    ("'" +:+ fn_type fn +:+ "' object has no attribute '" +:+ attr +:+ "'").

(** [fn.__module__] and [fn.__name__]: [held] is what [fn] has under
    the name [attr]. *)
Definition getattr (fn : callable) (attr : string) (held : option string) : outcome value :=
  match held with
  | Some text => Return (VStr text)
  | None => Raise (missing_attribute fn attr)
  end.

(** [push_exceptions(fn)] gives [ret_fn]; this is a call of [ret_fn],
    [args] holding its positional and keyword arguments.  [start_time] is assigned inside
    the [try]; [time.time()] raises nothing, so it is read here ahead of
    it and stays in scope for the handler. *)
Definition push_exceptions (fn : callable) (args : call_args) : M world value :=
  let* start_time := time_time in
  try_except (fn_call fn args) isinstance_Exception (fun e =>
    let* fail_time := time_time in
    let exec_time := VTimedelta (float_sub fail_time start_time) in
    let* module := lift_outcome (getattr fn "__module__" (fn_module fn)) in
    let* name := lift_outcome (getattr fn "__name__" (fn_name fn)) in
    let* title := lift_outcome (str_format "Error in {}:{} after {}"
                    [module; name; exec_time]) in
    let* message := lift_outcome (py_str (VExn e)) in
    send_message message title ;;
    raise e).

Definition recursion_error : exn :=
  Exn RecursionError "maximum recursion depth exceeded".

(** [push_success(fn)] gives [ret_fn]; this is a call of [ret_fn].
    The body calls [ret_fn] again, so the function is recursive; [depth]
    is the number of frames the interpreter still allows, and a call
    beyond it raises [RecursionError]. *)
Fixpoint push_success (fn : callable) (depth : nat) (args : call_args) : M world value :=
  match depth with
  | O => raise recursion_error
  | S d =>
      let* start_time := time_time in
      let* result := push_success fn d args in
      let* now := time_time in
      let exec_time := VTimedelta (float_sub now start_time) in
      let* module := lift_outcome (getattr fn "__module__" (fn_module fn)) in
      let* name := lift_outcome (getattr fn "__name__" (fn_name fn)) in
      let* message := lift_outcome (str_format "Completed {}:{} after {}"
                        [module; name; exec_time]) in
      send_message message "Success!" ;;
      ret result
  end.

(** ** [PushContext]

    Methods run on the instance together with the process, and mutate
    both. *)

Record PushContext := Build_PushContext {
  start_time : value;
  block_label : value;
  old_stdout : value;
  old_stderr : value;
  my_stdout : value;
  my_stderr : value
}.

Definition object : Type := PushContext * world.

Definition on_world {A} (c : M world A) : M object A :=
  fun s => match c (snd s) with (o, w') => (o, (fst s, w')) end.
Definition get_attr (field : PushContext -> value) : M object value :=
  gets (fun s => field (fst s)).
Definition set_attr (update : PushContext -> PushContext) : M object unit :=
  modify (fun s => (update (fst s), snd s)).

Definition set_start_time v (c : PushContext) :=
  Build_PushContext v (block_label c) (old_stdout c) (old_stderr c) (my_stdout c) (my_stderr c).
Definition set_block_label v (c : PushContext) :=
  Build_PushContext (start_time c) v (old_stdout c) (old_stderr c) (my_stdout c) (my_stderr c).
Definition set_old_stdout v (c : PushContext) :=
  Build_PushContext (start_time c) (block_label c) v (old_stderr c) (my_stdout c) (my_stderr c).
Definition set_old_stderr v (c : PushContext) :=
  Build_PushContext (start_time c) (block_label c) (old_stdout c) v (my_stdout c) (my_stderr c).
Definition set_my_stdout v (c : PushContext) :=
  Build_PushContext (start_time c) (block_label c) (old_stdout c) (old_stderr c) v (my_stderr c).
Definition set_my_stderr v (c : PushContext) :=
  Build_PushContext (start_time c) (block_label c) (old_stdout c) (old_stderr c) (my_stdout c) v.

(** A call with more arguments than the method has parameters:
    [declared] counts them with [self], [given] are the arguments after
    [self]. *)
Definition too_many_arguments (method : string) (declared : nat) (given : list value) : exn :=
  Exn TypeError
    ("PushContext." +:+ method +:+ "() takes " +:+ str_int (Z.of_nat declared)
     +:+ " positional argument" +:+ (if (declared =? 1)%nat then "" else "s")
     +:+ " but " +:+ str_int (Z.of_nat (S (length given)))
     +:+ (if (length given =? 0)%nat then " was given" else " were given")).

Definition missing_block_label : exn :=
  Exn TypeError
    "PushContext.__enter__() missing 1 required positional argument: 'block_label'".

(** [PushContext()] *)
Definition __init__ : PushContext :=
  Build_PushContext VNone (VStr "") VNone VNone VNone VNone.

(** [def __enter__(self, block_label)] *)
Definition __enter__ (args : list value) : M object value :=
  match args with
  | [label] =>
      let* now := on_world time_time in
      set_attr (set_start_time (VFloat now)) ;;
      set_attr (set_block_label label) ;;
      let* out := on_world (gets sys_stdout) in
      set_attr (set_old_stdout out) ;;
      let* sink := on_world StringIO in
      on_world (modify (set_sys_stdout sink)) ;;
      set_attr (set_my_stdout sink) ;;
      let* err := on_world (gets sys_stderr) in
      set_attr (set_old_stderr err) ;;
      let* sink := on_world StringIO in
      on_world (modify (set_sys_stderr sink)) ;;
      set_attr (set_my_stderr sink) ;;
      ret VNone
  | [] => raise missing_block_label
  | _ => raise (too_many_arguments "__enter__" 2 args)
  end.

(** [def get_status_message(self)] *)
Definition get_status_message : M object (string * string) :=
  let* sink := get_attr my_stderr in
  let* text := on_world (getvalue sink) in
  if truthy (VStr text) then
    let* sink := get_attr my_stderr in
    let* text := on_world (getvalue sink) in
    ret ("failed", text)
  else
    let* sink := get_attr my_stdout in
    let* text := on_world (getvalue sink) in
    ret ("succeeded", text).

(** [def __exit__(self)].  The arguments of [send_message] are computed
    before the call is made. *)
Definition __exit__ (args : list value) : M object value :=
  match args with
  | [] =>
      let* out := get_attr old_stdout in
      on_world (modify (set_sys_stdout out)) ;;
      let* err := get_attr old_stderr in
      on_world (modify (set_sys_stderr err)) ;;
      let* now := on_world time_time in
      let* started := get_attr start_time in
      let* exectime := lift_outcome (py_sub (VFloat now) started) in
      let* (status, message) := get_status_message in
      (if String.eqb status "failed" then
         let* target := on_world (gets sys_stderr) in
         on_world (stream_write target message)
       else
         let* target := on_world (gets sys_stdout) in
         on_world (stream_write target message)) ;;
      let* label := get_attr block_label in
      let* hms := lift_outcome (sec_to_hms exectime) in
      let* title := lift_outcome (str_format "{} {} after {}"
                      [label; VStr status; VStr hms]) in
      on_world (send_message message title) ;;
      ret VNone
  | _ => raise (too_many_arguments "__exit__" 1 args)
  end.

(** ** Ways of running a block under a [PushContext] *)

(** The [with] statement of the language: [enter] is called with the
    manager alone; [exit] is called with three more arguments, [None]
    three times after a body that completed, the exception's class,
    the exception and its traceback after one that raised, and then a
    true result swallows the exception. *)
Definition with_stmt {S} (enter exit : list value -> M S value) (body : M S unit)
  : M S unit :=
  let* _ := enter [] in
  fun s => match body s with
           | (Return _, s') =>
               (let* _ := exit [VNone; VNone; VNone] in ret tt) s'
           | (Raise e, s') =>
               match exit [VClass (exc_type e); VExn e; VTraceback] s' with
               | (Return r, s'') => if truthy r then (Return tt, s'') else (Raise e, s'')
               | (Raise e', s'') => (Raise e', s'')
               end
           end.

(** [with PushContext(): body] *)
Definition with_PushContext (body : M object unit) : M object unit :=
  with_stmt __enter__ __exit__ body.

(** The methods called one after the other, as their parameters ask:
    [ctx.__enter__(label); body; ctx.__exit__()]. *)
Definition called_in_sequence (label : value) (body : M object unit) : M object unit :=
  let* _ := __enter__ [label] in
  body ;;
  let* _ := __exit__ [] in
  ret tt.

(** The same with the caller guarding the exit:
    [ctx.__enter__(label)], then [try: body / finally: ctx.__exit__()]. *)
Definition called_with_finally (label : value) (body : M object unit) : M object unit :=
  let* _ := __enter__ [label] in
  try_finally body (let* _ := __exit__ [] in ret tt).

(** [sys.stdout.write(text)] and [sys.stderr.write(text)] in a body. *)
Definition write_stdout (text : string) : M object unit :=
  let* target := on_world (gets sys_stdout) in on_world (stream_write target text).
Definition write_stderr (text : string) : M object unit :=
  let* target := on_world (gets sys_stderr) in on_world (stream_write target text).


(** ** Names used in the statements below *)

(** The two errors [str.format] raises on the hour field [{:.02d}]. *)
Definition precision_not_allowed : exn :=
  Exn ValueError "Precision not allowed in integer format specifier".

Definition unknown_code_d_float : exn :=
  Exn ValueError "Unknown format code 'd' for object of type 'float'".

(** The title [push_exceptions] builds for a callable of module
    [module] and name [name]. *)
Definition error_title (module name : string) (elapsed : float) : string :=
  "Error in " +:+ module +:+ ":" +:+ name +:+ " after " +:+ timedelta_str elapsed.

(** What the handler of [push_exceptions] does for such a callable,
    started in [w']. *)
Definition reported (module name : string) (start : float) (e : exn) (w' : world) : world :=
  set_sent (sent w' ++ [Notification (exc_str e)
                          (error_title module name
                             (float_sub (wall_clock w' (reads w')) start))])
           (set_reads (S (reads w')) w').

(** The process after [n] more readings of the clock. *)
Fixpoint clock_read (n : nat) (w : world) : world :=
  match n with
  | O => w
  | S k => clock_read k (snd (time_time w))
  end.

(** ** Reasoning about a computation by its postcondition

    [wp c Q s]: running [c] from [s] ends in an outcome and a state that
    satisfy [Q]. *)

Definition wp {S A} (c : M S A) (Q : outcome A -> S -> Prop) (s : S) : Prop :=
  Q (fst (c s)) (snd (c s)).

Definition after_bind {S A B} (k : A -> M S B) (Q : outcome B -> S -> Prop)
  : outcome A -> S -> Prop :=
  fun o s => match o with
             | Return a => wp (k a) Q s
             | Raise e => Q (Raise e) s
             end.

End Python.

(** ** A sample implementation of the float interface

    Exact rational arithmetic.  On clock readings that are small dyadic
    numbers (such as 100.0 and 102.5) binary floating point computes
    the same values, so the closed examples below read as runs of the
    Python code. *)

Module ExactFloat.

Definition divmod (x y : Q) : Q * Q :=
  let q := Qfloor (x / y) in (inject_Z q, Qred (x - inject_Z q * y)).

(** Rounds to the nearest integer, ties to even. *)
Definition round_half_even (x : Q) : Z :=
  let f := Qfloor x in
  match Qcompare (x - inject_Z f) (1 # 2) with
  | Lt => f
  | Gt => f + 1
  | Eq => if Z.even f then f else f + 1
  end.

Definition digits (n : Z) : string := NilZero.string_of_uint (N.to_uint (Z.to_N n)).

Definition zfill (w : nat) (s : string) : string :=
  repeat_char "0" (w - String.length s) +:+ s.

(** [format(x, '.<p>f')]: [p] decimals, rounded half to even. *)
Definition fixed (p : nat) (x : Q) : string :=
  let scaled := round_half_even (Qabs x * inject_Z (10 ^ Z.of_nat p)) in
  let whole := digits (scaled / 10 ^ Z.of_nat p) in
  let frac := zfill p (digits (scaled mod 10 ^ Z.of_nat p)) in
  let sign := if Qlt_le_dec x 0 then "-" else "" in
  sign +:+ whole +:+ (match p with O => "" | _ => "." +:+ frac end).

(** Decimal digits of a fraction [num/den] in [0, 1), until it ends. *)
Fixpoint frac_digits (fuel : nat) (num den : Z) : string :=
  match fuel with
  | O => ""
  | S k => if num =? 0 then ""
           else digits (10 * num / den) +:+ frac_digits k (10 * num mod den) den
  end.

Definition repr (x : Q) : string :=
  let a := Qabs (Qred x) in
  let whole := Qfloor a in
  let frac := frac_digits 64 (Qnum a - whole * Z.pos (Qden a)) (Z.pos (Qden a)) in
  (if Qlt_le_dec x 0 then "-" else "") +:+ digits whole +:+ "." +:+
  (match frac with EmptyString => "0" | _ => frac end).

(** [str(timedelta(seconds=x))]: days, then H:MM:SS, then microseconds
    when there are any. *)
Definition td_str (x : Q) : string :=
  let us := round_half_even (x * inject_Z 1000000) in
  let days := us / 86400000000 in
  let secs := (us mod 86400000000) / 1000000 in
  let micro := us mod 1000000 in
  let hms := digits (secs / 3600) +:+ ":" +:+ zfill 2 (digits (secs / 60 mod 60))
             +:+ ":" +:+ zfill 2 (digits (secs mod 60)) in
  (if days =? 0 then ""
   else str_int days +:+ " day" +:+ (if Z.abs days =? 1 then "" else "s") +:+ ", ")
  +:+ hms +:+
  (if micro =? 0 then "" else "." +:+ zfill 6 (digits micro)).

Definition ops : FloatOps := {|
  float := Q;
  float_of_Z := inject_Z;
  float_sub := fun x y => Qred (x - y);
  float_divmod := divmod;
  float_fixed := fixed;
  float_repr := repr;
  timedelta_str := td_str
|}.

End ExactFloat.

(** ** Sample runs

    A process whose real standard output and standard error are the
    streams at addresses 0 and 1, whose clock reads 100.0, 102.5,
    105.0, ... and which has sent nothing yet; three functions of a
    module [jobs], and a [functools.partial] object made from one. *)

Section Samples.
#[local] Existing Instance ExactFloat.ops.

Definition sample_clock (n : nat) : Q := Qred (100 + (5 # 2) * inject_Z (Z.of_nat n)).

Definition fresh_process : world :=
  World [""; ""] (VStream 0) (VStream 1) sample_clock 0 [].

Definition no_args : call_args := CallArgs [] [].


(** [def answer(): return 42] *)
Definition answer : callable :=
  Callable "function" (Some "jobs") (Some "answer") (fun _ => ret (VInt 42)).


(** [functools.partial(boom)]: it raises as [boom] does, and has a
    [__module__] but no [__name__]. *)
Definition partial_boom : callable :=
  Callable "functools.partial" (Some "functools") None
    (fun _ => raise (Exn ValueError "boom")).

(** [raise RuntimeError("x")] as the body of a block. *)
Definition failing_body : M object unit :=
  raise (Exn (OtherException "RuntimeError") "x").

(** A session as [__enter__("job")] leaves it in [fresh_process]. *)
Definition entered : object :=
  snd (__enter__ [VStr "job"] (__init__, fresh_process)).

(** The same session after a body that wrote "hello" to [sys.stdout],
    and after one that wrote "oops" to [sys.stderr]. *)
Definition wrote_hello : object :=
  snd ((__enter__ [VStr "job"] ;; write_stdout "hello") (__init__, fresh_process)).
Definition wrote_oops : object :=
  snd ((__enter__ [VStr "job"] ;; write_stderr "oops") (__init__, fresh_process)).

End Samples.

(** * Properties *)

Section Properties.
Context `{FloatOps}.

(** ** The monad *)

Lemma bind_Raise {S A B} (c : M S A) (k : A -> M S B) s e s' :
  c s = (Raise e, s') -> bind c k s = (Raise e, s').
Proof. intros E. unfold bind. now rewrite E. Qed.

Lemma append_empty (s : string) : s +:+ "" = s.
Proof.
  induction s as [|c s IH]; [reflexivity|].
  change (String c s +:+ "") with (String c (s +:+ "")). now rewrite IH.
Qed.

(** ** The duration formatter *)

(** The first field, [{:.02d}], asks for a precision: an int refuses it. *)
Lemma first_field_int (z : Z) : py_format (VInt z) ".02d" = Raise precision_not_allowed.
Proof. reflexivity. Qed.

(** A float refuses the integer presentation [d]. *)
Lemma first_field_float (x : float) : py_format (VFloat x) ".02d" = Raise unknown_code_d_float.
Proof. reflexivity. Qed.

Lemma sec_to_hms_float (x : float) : sec_to_hms (VFloat x) = Raise unknown_code_d_float.
Proof.
  unfold sec_to_hms. simpl.
  destruct (float_divmod x (float_of_Z 60)) as [m s]. simpl.
  destruct (float_divmod m (float_of_Z 60)) as [h m']. reflexivity.
Qed.

(** C1 (the code departs from it).  [sec_to_hms] gives no string for a
    whole number of seconds: for every int, and so for 0, 59, 60, 3599,
    3600 and 86399, the call raises [ValueError], because the hour
    field of the template is written [{:.02d}], a precision, where
    [{:02d}] would pad to two digits. *)
Theorem sec_to_hms_int_raises (z : Z) :
  sec_to_hms (VInt z) = Raise precision_not_allowed.
Proof. reflexivity. Qed.

(** ** [push_exceptions] *)

Lemma error_title_format (module name : string) (elapsed : float) :
  str_format "Error in {}:{} after {}" [VStr module; VStr name; VTimedelta elapsed]
  = Return (error_title module name elapsed).
Proof.
  unfold str_format, error_title. simpl. now rewrite append_empty.
Qed.

Lemma push_exceptions_unfold (fn : callable) (args : call_args) (w : world) :
  push_exceptions fn args w =
  match fn_call fn args (snd (time_time w)) with
  | (Return v, w') => (Return v, w')
  | (Raise e, w') =>
      if isinstance_Exception e
      then match fn_module fn, fn_name fn with
           | Some module, Some name =>
               (Raise e, reported module name (wall_clock w (reads w)) e w')
           | None, _ => (Raise (missing_attribute fn "__module__"), snd (time_time w'))
           | Some _, None => (Raise (missing_attribute fn "__name__"), snd (time_time w'))
           end
      else (Raise e, w')
  end.
Proof.
  unfold push_exceptions, bind at 1, try_except. simpl.
  destruct (fn_call fn args _) as [[v|e] w']; [reflexivity|].
  destruct (isinstance_Exception e); [|reflexivity].
  unfold bind, time_time, lift_outcome, getattr.
  destruct (fn_module fn) as [module|]; [|reflexivity].
  destruct (fn_name fn) as [name|]; [|reflexivity].
  rewrite error_title_format. reflexivity.
Qed.


(** C3.  When [fn] returns, the wrapper returns the same value and
    leaves the process as [fn] left it: the wrapper itself sends
    nothing. *)
Theorem push_exceptions_returns
    (fn : callable) (args : call_args) (w w' : world) (v : value) :
  fn_call fn args (snd (time_time w)) = (Return v, w') ->
  push_exceptions fn args w = (Return v, w') /\
  sent (snd (push_exceptions fn args w)) = sent w'.
Proof.
  intros Hfn. rewrite push_exceptions_unfold, Hfn. split; reflexivity.
Qed.

(** ** [push_success] *)

Lemma push_success_overflows (fn : callable) (depth : nat) (args : call_args) (w : world) :
  push_success fn depth args w = (Raise recursion_error, clock_read depth w).
Proof.
  revert w. induction depth as [|d IH]; intros w; [reflexivity|].
  simpl. unfold bind at 1. simpl.
  now rewrite (bind_Raise _ _ _ _ _ (IH _)).
Qed.

Lemma clock_read_sent (n : nat) (w : world) : sent (clock_read n w) = sent w.
Proof. revert w. induction n as [|k IH]; intros w; simpl; [reflexivity | now rewrite IH]. Qed.

(** C5.  Whatever [fn] is and however many frames are left, a call of
    the wrapper made by [push_success] ends in [RecursionError]: it
    never returns a value, it sends nothing, and what it does is the
    same for every [fn], whose body is never run. *)
Theorem push_success_never_returns
    (fn : callable) (depth : nat) (args : call_args) (w : world) :
  fst (push_success fn depth args w) = Raise recursion_error /\
  (forall v, fst (push_success fn depth args w) <> Return v) /\
  sent (snd (push_success fn depth args w)) = sent w /\
  (forall fn', push_success fn' depth args w = push_success fn depth args w).
Proof.
  rewrite push_success_overflows. simpl. repeat split.
  - discriminate.
  - apply clock_read_sent.
  - intros fn'. apply push_success_overflows.
Qed.

Lemma wp_bind {S A B} (c : M S A) (k : A -> M S B) Q s :
  wp c (after_bind k Q) s -> wp (bind c k) Q s.
Proof.
  unfold wp, after_bind, bind. destruct (c s) as [[a|e] s']; simpl; auto.
Qed.

Lemma wp_ret {S A} (a : A) (Q : outcome A -> S -> Prop) s :
  Q (Return a) s -> wp (ret a) Q s.
Proof. auto. Qed.

Lemma wp_raise {S A} e (Q : outcome A -> S -> Prop) s :
  Q (Raise e) s -> wp (raise e) Q s.
Proof. auto. Qed.

Lemma wp_gets {S A} (f : S -> A) (Q : outcome A -> S -> Prop) s :
  Q (Return (f s)) s -> wp (gets f) Q s.
Proof. auto. Qed.

Lemma wp_modify {S} (f : S -> S) (Q : outcome unit -> S -> Prop) s :
  Q (Return tt) (f s) -> wp (modify f) Q s.
Proof. auto. Qed.

Lemma wp_lift_outcome {S A} (o : outcome A) (Q : outcome A -> S -> Prop) s :
  Q o s -> wp (lift_outcome o) Q s.
Proof. auto. Qed.

Lemma wp_on_world {A} (c : M world A) (Q : outcome A -> object -> Prop) (s : object) :
  wp c (fun o w' => Q o (fst s, w')) (snd s) -> wp (on_world c) Q s.
Proof. unfold wp, on_world. destruct (c (snd s)); auto. Qed.

Lemma wp_get_attr (field : PushContext -> value) (Q : outcome value -> object -> Prop) s :
  Q (Return (field (fst s))) s -> wp (get_attr field) Q s.
Proof. auto. Qed.

Lemma wp_set_attr (update : PushContext -> PushContext) (Q : outcome unit -> object -> Prop) s :
  Q (Return tt) (update (fst s), snd s) -> wp (set_attr update) Q s.
Proof. auto. Qed.

Lemma wp_time_time (Q : outcome float -> world -> Prop) w :
  Q (Return (wall_clock w (reads w))) (set_reads (S (reads w)) w) -> wp time_time Q w.
Proof. auto. Qed.

Lemma wp_send_message msg ttl (Q : outcome unit -> world -> Prop) w :
  Q (Return tt) (set_sent (sent w ++ [Notification msg ttl]) w) ->
  wp (send_message msg ttl) Q w.
Proof. auto. Qed.

(** Reading a stream leaves the process as it is. *)
Lemma getvalue_state (target : value) (w : world) : snd (getvalue target w) = w.
Proof. destruct target; simpl; try reflexivity. now destruct (streams w !! id). Qed.

Lemma wp_getvalue target (Q : outcome string -> world -> Prop) w :
  Q (fst (getvalue target w)) w -> wp (getvalue target) Q w.
Proof. unfold wp. now rewrite getvalue_state. Qed.

(** Writing to a stream changes the heap of streams and nothing else. *)
Lemma stream_write_frame (target : value) (text : string) (w : world) :
  let w' := snd (stream_write target text w) in
  sys_stdout w' = sys_stdout w /\ sys_stderr w' = sys_stderr w /\
  reads w' = reads w /\ sent w' = sent w.
Proof.
  destruct target; simpl; auto. now destruct (streams w !! id).
Qed.

Lemma stream_write_streams (i : nat) (old text : string) (w : world) :
  streams w !! i = Some old ->
  stream_write (VStream i) text w =
    (Return tt, set_streams (<[i := old +:+ text]> (streams w)) w).
Proof. intros E. simpl. now rewrite E. Qed.

Ltac wp_step :=
  lazymatch goal with
  | |- wp (bind _ _) _ _ => apply wp_bind
  | |- wp (ret _) _ _ => apply wp_ret
  | |- wp (raise _) _ _ => apply wp_raise
  | |- wp (gets _) _ _ => apply wp_gets
  | |- wp (modify _) _ _ => apply wp_modify
  | |- wp (lift_outcome _) _ _ => apply wp_lift_outcome
  | |- wp (on_world _) _ _ => apply wp_on_world
  | |- wp (get_attr _) _ _ => apply wp_get_attr
  | |- wp (set_attr _) _ _ => apply wp_set_attr
  | |- wp time_time _ _ => apply wp_time_time
  | |- wp (send_message _ _) _ _ => apply wp_send_message
  | |- wp (getvalue _) _ _ => apply wp_getvalue
  | |- after_bind _ _ (Return _) _ => unfold after_bind at 1
  | |- after_bind _ _ (Raise _) _ => unfold after_bind at 1
  end.

(** ** [PushContext] *)

(** The [with] statement cannot enter a [PushContext]: it calls
    [__enter__] without the [block_label] the method requires.  The
    body is not run and nothing changes. *)
Lemma with_PushContext_cannot_enter (body : M object unit) (s : object) :
  with_PushContext body s = (Raise missing_block_label, s).
Proof. reflexivity. Qed.

(** Called the way the [with] statement calls it, [__exit__] refuses
    its arguments before doing anything. *)
Lemma exit_refuses_exception_arguments (a b c : value) (s : object) :
  __exit__ [a; b; c] s = (Raise (too_many_arguments "__exit__" 1 [a; b; c]), s).
Proof. reflexivity. Qed.

(** [get_status_message] only reads. *)
Lemma get_status_message_state (s : object) : snd (get_status_message s) = s.
Proof.
  destruct s as [self w].
  change (wp get_status_message (fun _ s' => s' = (self, w)) (self, w)).
  unfold get_status_message. repeat wp_step. cbn [fst snd].
  destruct (fst (getvalue (my_stderr self) w)) as [text|e]; repeat wp_step; [|reflexivity].
  destruct (truthy (VStr text)); repeat wp_step; cbn [fst snd].
  - destruct (fst (getvalue (my_stderr self) w)); repeat wp_step; reflexivity.
  - destruct (fst (getvalue (my_stdout self) w)); repeat wp_step; reflexivity.
Qed.

Lemma wp_get_status_message (Q : outcome (string * string) -> object -> Prop) s :
  Q (fst (get_status_message s)) s -> wp get_status_message Q s.
Proof. unfold wp. now rewrite get_status_message_state. Qed.

Lemma get_status_message_eq (self : PushContext) (w : world)
    (o e : nat) (out err : string) :
  my_stdout self = VStream o -> my_stderr self = VStream e ->
  streams w !! o = Some out -> streams w !! e = Some err ->
  get_status_message (self, w) =
    (Return (if String.eqb err "" then ("succeeded", out) else ("failed", err)), (self, w)).
Proof.
  intros Ho He Hout Herr.
  unfold get_status_message, bind, get_attr, gets, on_world, getvalue, ret. simpl.
  rewrite He, Herr. simpl.
  destruct (String.eqb err ""); simpl.
  - now rewrite Ho, Hout.
  - now rewrite He, Herr.
Qed.

Lemma wp_stream_write target text (Q : outcome unit -> world -> Prop) w :
  (forall o w', sys_stdout w' = sys_stdout w -> sys_stderr w' = sys_stderr w ->
                reads w' = reads w -> sent w' = sent w -> Q o w') ->
  wp (stream_write target text) Q w.
Proof.
  intros HQ. destruct (stream_write_frame target text w) as (? & ? & ? & ?).
  now apply HQ.
Qed.

Ltac fields :=
  cbn [fst snd streams sys_stdout sys_stderr wall_clock reads sent
       set_streams set_sys_stdout set_sys_stderr set_reads set_sent].

(** The steps of [__exit__] up to the echo, which every property below
    goes through: restoring, reading the clock, subtracting, classifying. *)
Ltac exit_steps :=
  unfold __exit__; repeat wp_step; cbn [fst snd];
  destruct (py_sub _ _) as [exectime|?] eqn:Hsub;
    repeat wp_step;
    [ apply wp_get_status_message;
      destruct (fst (get_status_message _)) as [[status message]|?] eqn:Hmsg;
        repeat wp_step;
        [ destruct (String.eqb status "failed") eqn:Hstatus; repeat wp_step | ]
    | ].

Lemma py_sub_float (a b v : value) : py_sub a b = Return v -> exists x, v = VFloat x.
Proof.
  destruct a, b; simpl; try discriminate. intros [= <-]. eauto.
Qed.

(** [__exit__] puts back the saved streams first; nothing it does
    afterwards touches [sys.stdout] or [sys.stderr] again. *)
Lemma exit_restores (s : object) :
  sys_stdout (snd (snd (__exit__ [] s))) = old_stdout (fst s) /\
  sys_stderr (snd (snd (__exit__ [] s))) = old_stderr (fst s).
Proof.
  destruct s as [self w].
  change (wp (__exit__ [])
            (fun _ s' => sys_stdout (snd s') = old_stdout self /\
                         sys_stderr (snd s') = old_stderr self) (self, w)).
  exit_steps; try (now split).
  all: apply wp_stream_write; fields; intros [[]|e] w' Hout Herr _ _;
    repeat wp_step; fields; try (now rewrite Hout, Herr).
  all: destruct (sec_to_hms exectime); repeat wp_step; fields;
    try (now rewrite Hout, Herr).
  all: destruct (str_format _ _); repeat wp_step; fields;
    now rewrite Hout, Herr.
Qed.

(** C9 (the code departs from it).  [__exit__] sends no notification,
    in any state and with any arguments, and never returns: the elapsed
    time is a float, and [sec_to_hms] raises [ValueError] on it while
    the title is being built, before [send_message] is called. *)
Theorem exit_never_notifies (args : list value) (s : object) :
  sent (snd (snd (__exit__ args s))) = sent (snd s) /\
  (forall v, fst (__exit__ args s) <> Return v).
Proof.
  destruct args as [|a args]; [|now split].
  destruct s as [self w].
  change (wp (__exit__ [])
            (fun o s' => sent (snd s') = sent w /\ forall v, o <> Return v) (self, w)).
  exit_steps; try (now split).
  all: destruct (py_sub_float _ _ _ Hsub) as [x ->].
  all: apply wp_stream_write; fields; intros [[]|e] w' _ _ _ Hsent;
    repeat wp_step; fields; try (now split).
  all: rewrite sec_to_hms_float; repeat wp_step; now split.
Qed.

(** C7.  With [err] the text in the captured error sink and [out] the
    text in the captured output sink, [get_status_message] answers
    "failed" exactly when [err] is not empty, and then the message is
    [err]; otherwise it answers "succeeded" with message [out].  It
    reads the two sinks and nothing else: no part of the state tells it
    whether the body raised. *)
Theorem status_follows_captured_stderr
    (self : PushContext) (w : world) (o e : nat) (out err : string) :
  my_stdout self = VStream o -> my_stderr self = VStream e ->
  streams w !! o = Some out -> streams w !! e = Some err ->
  exists status message,
    get_status_message (self, w) = (Return (status, message), (self, w)) /\
    (status = "failed" <-> err <> "") /\
    (err <> "" -> message = err) /\
    (err = "" -> status = "succeeded" /\ message = out).
Proof.
  intros Ho He Hout Herr.
  rewrite (get_status_message_eq self w o e out err Ho He Hout Herr).
  destruct (String.eqb_spec err "") as [->|Hne].
  - exists "succeeded", out. repeat split; auto; try discriminate; congruence.
  - exists "failed", err. repeat split; auto; congruence.
Qed.

(** C10.  When both captured sinks are empty the answer is "succeeded"
    with the empty message. *)
Theorem nothing_captured_is_success
    (self : PushContext) (w : world) (o e : nat) :
  my_stdout self = VStream o -> my_stderr self = VStream e ->
  streams w !! o = Some "" -> streams w !! e = Some "" ->
  get_status_message (self, w) = (Return ("succeeded", ""), (self, w)).
Proof.
  intros Ho He Hout Herr.
  now rewrite (get_status_message_eq self w o e "" "" Ho He Hout Herr).
Qed.

(** C8.  In a session whose saved streams are [so] and [se] and whose
    sinks hold [out] and [err], [__exit__] first makes [so] and [se] the
    current [sys.stdout] and [sys.stderr] again, and then appends the
    message to one of them: [err] to the error stream [se] when [err]
    is not empty, [out] to the output stream [so] otherwise.  No other
    stream changes. *)
Theorem exit_echoes_to_restored_stream
    (self : PushContext) (w : world) (t : float) (so se o e : nat)
    (on_so on_se out err : string) :
  start_time self = VFloat t ->
  old_stdout self = VStream so -> old_stderr self = VStream se ->
  my_stdout self = VStream o -> my_stderr self = VStream e ->
  streams w !! so = Some on_so -> streams w !! se = Some on_se ->
  streams w !! o = Some out -> streams w !! e = Some err ->
  sys_stdout (snd (snd (__exit__ [] (self, w)))) = VStream so /\
  sys_stderr (snd (snd (__exit__ [] (self, w)))) = VStream se /\
  (err <> "" ->
     streams (snd (snd (__exit__ [] (self, w)))) = <[se := on_se +:+ err]> (streams w)) /\
  (err = "" ->
     streams (snd (snd (__exit__ [] (self, w)))) = <[so := on_so +:+ out]> (streams w)).
Proof.
  intros Hstart Hoo Hoe Hmo Hme Hso Hse Hout Herr.
  destruct (exit_restores (self, w)) as [R1 R2]. cbn [fst] in R1, R2.
  rewrite R1, R2, Hoo, Hoe. do 2 (split; [reflexivity|]).
  change (wp (__exit__ [])
            (fun _ s' =>
               (err <> "" -> streams (snd s') = <[se := on_se +:+ err]> (streams w)) /\
               (err = "" -> streams (snd s') = <[so := on_so +:+ out]> (streams w)))
            (self, w)).
  unfold __exit__. repeat wp_step. fields.
  rewrite Hstart. cbn [py_sub]. repeat wp_step.
  apply wp_get_status_message.
  match goal with
  | |- context [get_status_message (self, ?w2)] =>
      rewrite (get_status_message_eq self w2 o e out err Hmo Hme Hout Herr)
  end. cbn [fst].
  destruct (String.eqb_spec err "") as [->|Hne]; repeat wp_step.
  - change (String.eqb "succeeded" "failed") with false. cbv iota.
    repeat wp_step. fields. rewrite Hoo. unfold wp.
    match goal with
    | |- context [stream_write _ _ ?w2] =>
        rewrite (stream_write_streams so on_so out w2 Hso)
    end. cbn [fst snd].
    repeat wp_step. rewrite sec_to_hms_float. repeat wp_step. fields.
    split; [congruence | reflexivity].
  - change (String.eqb "failed" "failed") with true. cbv iota.
    repeat wp_step. fields. rewrite Hoe. unfold wp.
    match goal with
    | |- context [stream_write _ _ ?w2] =>
        rewrite (stream_write_streams se on_se err w2 Hse)
    end. cbn [fst snd].
    repeat wp_step. rewrite sec_to_hms_float. repeat wp_step. fields.
    split; [reflexivity | congruence].
Qed.

(** ** Further properties of the formatter and of [push_exceptions] *)

(** X1.  On every float, the kind of number [__exit__] passes,
    [sec_to_hms] raises [ValueError]: [divmod] gives floats and the hour
    field [{:.02d}] refuses them.  On [None] and on every string it
    raises [TypeError], which comes from [divmod]. *)
Theorem sec_to_hms_raises_on_float_None_str :
  (forall x, sec_to_hms (VFloat x) = Raise unknown_code_d_float) /\
  sec_to_hms VNone = Raise (unsupported_operands "divmod()" VNone (VInt 60)) /\
  (forall text, sec_to_hms (VStr text)
                = Raise (unsupported_operands "divmod()" (VStr text) (VInt 60))).
Proof.
  split; [exact sec_to_hms_float | split; [reflexivity | intros text; reflexivity]].
Qed.


(** X15.  When [fn] raises an instance of [Exception] but lacks
    [__module__] or [__name__], the wrapper raises [AttributeError] in
    place of the exception of [fn], and sends nothing: the attribute is
    read while the title is built, before the Notifier is called. *)
Theorem push_exceptions_nameless_callable
    (fn : callable) (args : call_args) (w w' : world) (e : exn) :
  fn_call fn args (snd (time_time w)) = (Raise e, w') ->
  isinstance_Exception e = true ->
  fn_module fn = None \/ fn_name fn = None ->
  exists a, fst (push_exceptions fn args w) = Raise a /\
            exc_type a = AttributeError /\
            sent (snd (push_exceptions fn args w)) = sent w'.
Proof.
  intros Hfn He Hlacks. rewrite push_exceptions_unfold, Hfn, He.
  destruct (fn_module fn) as [module|]; [|eexists; repeat split].
  destruct (fn_name fn) as [name|]; [|eexists; repeat split].
  now destruct Hlacks.
Qed.

(** X3.  Beyond what [fn] does, the wrapper touches only the clock and
    the Notifier: streams and [sys.stdout]/[sys.stderr] are as [fn]
    left them, what was sent before stays, and at most one notification
    is added. *)
Theorem push_exceptions_frame (fn : callable) (args : call_args) (w : world) :
  let w' := snd (fn_call fn args (snd (time_time w))) in
  let w'' := snd (push_exceptions fn args w) in
  streams w'' = streams w' /\ sys_stdout w'' = sys_stdout w' /\
  sys_stderr w'' = sys_stderr w' /\
  exists added, sent w'' = sent w' ++ added /\ (length added <= 1)%nat.
Proof.
  cbv zeta. rewrite push_exceptions_unfold.
  destruct (fn_call fn args _) as [[v|e] w']; cbn [snd].
  - repeat split. exists []. split; [now rewrite app_nil_r | auto].
  - destruct (isinstance_Exception e); cbn [snd].
    + destruct (fn_module fn) as [module|]; [destruct (fn_name fn) as [name|]|]; cbn [snd].
      * repeat split. eexists. split; [reflexivity | auto].
      * repeat split. exists []. split; [now rewrite app_nil_r | auto].
      * repeat split. exists []. split; [now rewrite app_nil_r | auto].
    + repeat split. exists []. split; [now rewrite app_nil_r | auto].
Qed.


(** ** Further properties of [PushContext] *)

(** What [__enter__] does with one argument, in one step. *)
Lemma enter_run (label : value) (self : PushContext) (w : world) :
  __enter__ [label] (self, w) =
    (Return VNone,
     (Build_PushContext (VFloat (wall_clock w (reads w))) label
        (sys_stdout w) (sys_stderr w)
        (VStream (length (streams w))) (VStream (S (length (streams w)))),
      World (streams w ++ [""; ""])
        (VStream (length (streams w))) (VStream (S (length (streams w))))
        (wall_clock w) (S (reads w)) (sent w))).
Proof.
  unfold __enter__, bind, on_world, set_attr, modify, gets, ret, time_time, StringIO.
  cbn. rewrite length_app, <- app_assoc. cbn. now rewrite Nat.add_1_r.
Qed.

(** X5.  [__enter__] with a label returns [None] and leaves the session
    active: the clock reading, the label and the current [sys.stdout]
    and [sys.stderr] are saved, and two new streams take their place.
    The new streams are empty, are two different objects, and are none
    of the streams the process had, all of which keep their text;
    nothing is sent. *)
Theorem enter_installs_fresh_sinks (label : value) (self : PushContext) (w : world) :
  let r := __enter__ [label] (self, w) in
  let ctx := fst (snd r) in
  let w' := snd (snd r) in
  let n := length (streams w) in
  fst r = Return VNone /\
  start_time ctx = VFloat (wall_clock w (reads w)) /\ block_label ctx = label /\
  old_stdout ctx = sys_stdout w /\ old_stderr ctx = sys_stderr w /\
  my_stdout ctx = VStream n /\ my_stderr ctx = VStream (S n) /\
  sys_stdout w' = VStream n /\ sys_stderr w' = VStream (S n) /\
  streams w !! n = None /\ streams w !! S n = None /\
  streams w' !! n = Some "" /\ streams w' !! S n = Some "" /\
  (forall i text, streams w !! i = Some text -> streams w' !! i = Some text) /\
  sent w' = sent w.
Proof.
  cbv zeta. rewrite enter_run. cbn [fst snd start_time block_label old_stdout old_stderr
    my_stdout my_stderr sys_stdout sys_stderr streams sent].
  repeat split.
  - apply lookup_ge_None. lia.
  - apply lookup_ge_None. lia.
  - rewrite lookup_app_r by lia. now rewrite Nat.sub_diag.
  - rewrite lookup_app_r by lia. now replace (S (length (streams w)) - length (streams w))%nat with 1%nat by lia.
  - intros i text Hi. now apply lookup_app_l_Some.
Qed.

(** X6.  [__enter__] called with no label, or with more than one
    argument, raises [TypeError] and changes nothing. *)
Theorem enter_needs_one_argument (args : list value) (s : object) :
  length args <> 1%nat ->
  exists e, __enter__ args s = (Raise e, s) /\ exc_type e = TypeError.
Proof.
  intros Hlen. destruct args as [|a [|b args]]; [| now contradiction Hlen |];
    eexists; split; reflexivity.
Qed.

(** X7.  [__exit__] called with any argument after [self], as the
    [with] statement calls it, raises [TypeError] and changes nothing:
    the streams are not restored. *)
Theorem exit_takes_no_argument (args : list value) (s : object) :
  args <> [] ->
  exists e, __exit__ args s = (Raise e, s) /\ exc_type e = TypeError.
Proof.
  intros Hargs. destruct args as [|a args]; [now contradiction Hargs|].
  eexists; split; reflexivity.
Qed.

Lemma bind_Return {S A B} (c : M S A) (k : A -> M S B) s a s' :
  c s = (Return a, s') -> bind c k s = k a s'.
Proof. intros E. unfold bind. now rewrite E. Qed.

Lemma write_stdout_run (text : string) (s : object) (i : nat) (old : string) :
  sys_stdout (snd s) = VStream i -> streams (snd s) !! i = Some old ->
  write_stdout text s =
    (Return tt, (fst s, set_streams (<[i := old +:+ text]> (streams (snd s))) (snd s))).
Proof.
  intros Hi Hold. unfold write_stdout, bind, on_world, gets. cbn [fst snd].
  rewrite Hi. now rewrite (stream_write_streams i old text _ Hold).
Qed.

Lemma write_stderr_run (text : string) (s : object) (i : nat) (old : string) :
  sys_stderr (snd s) = VStream i -> streams (snd s) !! i = Some old ->
  write_stderr text s =
    (Return tt, (fst s, set_streams (<[i := old +:+ text]> (streams (snd s))) (snd s))).
Proof.
  intros Hi Hold. unfold write_stderr, bind, on_world, gets. cbn [fst snd].
  rewrite Hi. now rewrite (stream_write_streams i old text _ Hold).
Qed.

(** X8.  Between [__enter__] and [__exit__] what the body writes is
    captured: after writing [out] to [sys.stdout] and [err] to
    [sys.stderr], the two sinks hold exactly [out] and [err], and the
    streams that were current before hold what they held. *)
Theorem writes_are_captured
    (label : value) (self : PushContext) (w : world)
    (so se : nat) (on_so on_se out err : string) :
  sys_stdout w = VStream so -> sys_stderr w = VStream se ->
  streams w !! so = Some on_so -> streams w !! se = Some on_se ->
  let r := (__enter__ [label] ;; write_stdout out ;; write_stderr err) (self, w) in
  fst r = Return tt /\
  streams (snd (snd r)) !! so = Some on_so /\
  streams (snd (snd r)) !! se = Some on_se /\
  streams (snd (snd r)) !! length (streams w) = Some out /\
  streams (snd (snd r)) !! S (length (streams w)) = Some err.
Proof.
  intros Hout Herr Hso Hse. cbv zeta.
  pose proof (lookup_lt_Some _ _ _ Hso) as Lso.
  pose proof (lookup_lt_Some _ _ _ Hse) as Lse.
  set (n := length (streams w)) in *.
  assert (Hlen : (length (streams w ++ [""; ""]) = n + 2)%nat)
    by (rewrite length_app; reflexivity).
  rewrite (bind_Return _ _ _ _ _ (enter_run label self w)). fold n.
  assert (Hn : (streams w ++ [""; ""]) !! n = Some "").
  { rewrite lookup_app_r by (unfold n; lia). now rewrite Nat.sub_diag. }
  assert (HSn : (streams w ++ [""; ""]) !! S n = Some "").
  { rewrite lookup_app_r by (unfold n; lia).
    now replace (S n - length (streams w))%nat with 1%nat by (unfold n; lia). }
  erewrite bind_Return; [|apply (write_stdout_run out _ n ""); [reflexivity | exact Hn]].
  cbn [fst snd streams sys_stdout sys_stderr set_streams].
  rewrite (write_stderr_run err _ (S n) ""); [|reflexivity|].
  2:{ cbn [fst snd streams sys_stdout sys_stderr set_streams].
      rewrite list_lookup_insert_ne by lia. exact HSn. }
  cbn [fst snd streams sys_stdout sys_stderr set_streams].
  repeat split.
  - rewrite !list_lookup_insert_ne by lia. now apply lookup_app_l_Some.
  - rewrite !list_lookup_insert_ne by lia. now apply lookup_app_l_Some.
  - rewrite list_lookup_insert_ne by lia. rewrite list_lookup_insert_eq by lia. reflexivity.
  - rewrite list_lookup_insert_eq; [reflexivity|]. rewrite length_insert. lia.
Qed.

(** What [__exit__] does in an active session, in one step. *)
Lemma exit_run
    (self : PushContext) (w : world) (t : float) (so se o e : nat)
    (on_so on_se out err : string) :
  start_time self = VFloat t ->
  old_stdout self = VStream so -> old_stderr self = VStream se ->
  my_stdout self = VStream o -> my_stderr self = VStream e ->
  streams w !! so = Some on_so -> streams w !! se = Some on_se ->
  streams w !! o = Some out -> streams w !! e = Some err ->
  __exit__ [] (self, w) =
    (Raise unknown_code_d_float,
     (self,
      set_streams (if String.eqb err "" then <[so := on_so +:+ out]> (streams w)
                   else <[se := on_se +:+ err]> (streams w))
        (set_reads (S (reads w))
           (set_sys_stderr (VStream se) (set_sys_stdout (VStream so) w))))).
Proof.
  intros Hstart Hoo Hoe Hmo Hme Hso Hse Hout Herr.
  rewrite (surjective_pairing (__exit__ [] (self, w))).
  match goal with
  | |- _ = ?X => change (wp (__exit__ []) (fun o' s' => (o', s') = X) (self, w))
  end.
  unfold __exit__. repeat wp_step. fields.
  rewrite Hstart. cbn [py_sub]. repeat wp_step.
  apply wp_get_status_message.
  match goal with
  | |- context [get_status_message (self, ?w2)] =>
      rewrite (get_status_message_eq self w2 o e out err Hmo Hme Hout Herr)
  end. cbn [fst].
  destruct (String.eqb err ""); repeat wp_step.
  - change (String.eqb "succeeded" "failed") with false. cbv iota.
    repeat wp_step. fields. rewrite Hoo. unfold wp.
    match goal with
    | |- context [stream_write _ _ ?w2] =>
        rewrite (stream_write_streams so on_so out w2 Hso)
    end. cbn [fst snd].
    repeat wp_step. rewrite sec_to_hms_float. repeat wp_step. fields.
    rewrite ?Hoo, ?Hoe. reflexivity.
  - change (String.eqb "failed" "failed") with true. cbv iota.
    repeat wp_step. fields. rewrite Hoe. unfold wp.
    match goal with
    | |- context [stream_write _ _ ?w2] =>
        rewrite (stream_write_streams se on_se err w2 Hse)
    end. cbn [fst snd].
    repeat wp_step. rewrite sec_to_hms_float. repeat wp_step. fields.
    rewrite ?Hoo, ?Hoe. reflexivity.
Qed.

Lemma writes_run (s : object) (i j : nat) (on_i on_j out err : string) :
  sys_stdout (snd s) = VStream i -> sys_stderr (snd s) = VStream j -> i <> j ->
  streams (snd s) !! i = Some on_i -> streams (snd s) !! j = Some on_j ->
  (write_stdout out ;; write_stderr err) s =
    (Return tt,
     (fst s, set_streams (<[j := on_j +:+ err]> (<[i := on_i +:+ out]> (streams (snd s))))
               (snd s))).
Proof.
  intros Hi Hj Hij Hon_i Hon_j.
  rewrite (bind_Return _ _ _ _ _ (write_stdout_run out s i on_i Hi Hon_i)).
  rewrite (write_stderr_run err _ j on_j); [reflexivity | exact Hj |].
  cbn [fst snd streams set_streams]. now rewrite list_lookup_insert_ne.
Qed.

(** X9.  A block run by calling the methods in sequence, whose body
    writes [out] to [sys.stdout] and [err] to [sys.stderr].  At exit
    the saved streams are current again and the call ends in
    [ValueError] with nothing sent.  When [err] is empty, [out] has
    been appended to the real standard output; when it is not, [err]
    has been appended to the real standard error and [out] appears on
    no real stream. *)
Theorem captured_text_is_echoed_at_exit
    (label : value) (self : PushContext) (w : world)
    (so se : nat) (on_so on_se out err : string) :
  sys_stdout w = VStream so -> sys_stderr w = VStream se ->
  streams w !! so = Some on_so -> streams w !! se = Some on_se ->
  let r := called_in_sequence label (write_stdout out ;; write_stderr err) (self, w) in
  fst r = Raise unknown_code_d_float /\
  sys_stdout (snd (snd r)) = VStream so /\ sys_stderr (snd (snd r)) = VStream se /\
  sent (snd (snd r)) = sent w /\
  (err = "" ->
     streams (snd (snd r)) !! so = Some (on_so +:+ out) /\
     (so <> se -> streams (snd (snd r)) !! se = Some on_se)) /\
  (err <> "" ->
     streams (snd (snd r)) !! se = Some (on_se +:+ err) /\
     (so <> se -> streams (snd (snd r)) !! so = Some on_so)).
Proof.
  intros Hout Herr Hso Hse. cbv zeta.
  pose proof (lookup_lt_Some _ _ _ Hso) as Lso.
  pose proof (lookup_lt_Some _ _ _ Hse) as Lse.
  set (n := length (streams w)) in *.
  assert (Hlen : (length (streams w ++ [""; ""]) = n + 2)%nat)
    by (rewrite length_app; reflexivity).
  assert (Hn : (streams w ++ [""; ""]) !! n = Some "").
  { rewrite lookup_app_r by (unfold n; lia). now rewrite Nat.sub_diag. }
  assert (HSn : (streams w ++ [""; ""]) !! S n = Some "").
  { rewrite lookup_app_r by (unfold n; lia).
    now replace (S n - length (streams w))%nat with 1%nat by (unfold n; lia). }
  unfold called_in_sequence.
  rewrite (bind_Return _ _ _ _ _ (enter_run label self w)). fold n.
  erewrite bind_Return;
    [|apply (writes_run _ n (S n) "" "" out err);
      [reflexivity | reflexivity | lia | exact Hn | exact HSn]].
  cbn [fst snd streams sys_stdout sys_stderr set_streams].
  change ("" +:+ out) with out. change ("" +:+ err) with err.
  erewrite bind_Raise;
    [|eapply exit_run with (so := so) (se := se) (o := n) (e := S n)
        (on_so := on_so) (on_se := on_se) (out := out) (err := err);
      cbn [start_time old_stdout old_stderr my_stdout my_stderr streams];
      [reflexivity | exact Hout | exact Herr | reflexivity | reflexivity | | | |]].
  2-5: fields.
  2,3: rewrite !list_lookup_insert_ne by lia; now apply lookup_app_l_Some.
  2: rewrite list_lookup_insert_ne by lia;
     now rewrite list_lookup_insert_eq by lia.
  2: rewrite list_lookup_insert_eq; [reflexivity | rewrite length_insert; lia].
  fields. do 4 (split; [reflexivity|]).
  split.
  - intros ->. change (String.eqb "" "") with true. cbv iota. split.
    + rewrite list_lookup_insert_eq; [reflexivity | rewrite !length_insert; lia].
    + intros Hne. rewrite !list_lookup_insert_ne by lia. now apply lookup_app_l_Some.
  - intros Hne. destruct (String.eqb_spec err "") as [->|_]; [now contradiction Hne|]. split.
    + rewrite list_lookup_insert_eq; [reflexivity | rewrite !length_insert; lia].
    + intros Hd. rewrite !list_lookup_insert_ne by lia. now apply lookup_app_l_Some.
Qed.

(** X10.  [__exit__] on a context that was never entered makes
    [sys.stdout] and [sys.stderr] both [None], then raises [TypeError]
    on the subtraction of the missing start time; no stream is written
    and nothing is sent. *)
Theorem exit_before_enter_unsets_streams (w : world) :
  let r := __exit__ [] (__init__, w) in
  (exists e, fst r = Raise e /\ exc_type e = TypeError) /\
  sys_stdout (snd (snd r)) = VNone /\ sys_stderr (snd (snd r)) = VNone /\
  streams (snd (snd r)) = streams w /\ sent (snd (snd r)) = sent w.
Proof.
  cbv zeta. split; [eexists; split; reflexivity|]. repeat split.
Qed.

(** X11.  A context entered twice forgets the streams of the process:
    the second [__enter__] saves the sinks of the first, so [__exit__]
    makes those sinks current, streams that did not exist before the
    first [__enter__]. *)
Theorem second_enter_forgets_streams (label1 label2 : value) (self : PushContext) (w : world) :
  let r := (__enter__ [label1] ;; __enter__ [label2] ;; __exit__ []) (self, w) in
  sys_stdout (snd (snd r)) = VStream (length (streams w)) /\
  sys_stderr (snd (snd r)) = VStream (S (length (streams w))) /\
  streams w !! length (streams w) = None /\
  streams w !! S (length (streams w)) = None.
Proof.
  cbv zeta.
  rewrite (bind_Return _ _ _ _ _ (enter_run label1 self w)).
  erewrite bind_Return; [|apply enter_run].
  match goal with
  | |- context [__exit__ [] ?s] => destruct (exit_restores s) as [R1 R2]
  end.
  rewrite R1, R2. cbn [fst old_stdout old_stderr sys_stdout sys_stderr].
  repeat split; apply lookup_ge_None; lia.
Qed.

(** X12.  With the caller's [finally] around the body, [sys.stdout] and
    [sys.stderr] are back to what they were before [__enter__] however
    the body ends, as long as the body does not assign the saved
    attributes of the context. *)
Theorem finally_restores_streams
    (label : value) (body : M object unit) (self : PushContext) (w : world) :
  (forall s, old_stdout (fst (snd (body s))) = old_stdout (fst s) /\
             old_stderr (fst (snd (body s))) = old_stderr (fst s)) ->
  sys_stdout (snd (snd (called_with_finally label body (self, w)))) = sys_stdout w /\
  sys_stderr (snd (snd (called_with_finally label body (self, w)))) = sys_stderr w.
Proof.
  intros Hbody. unfold called_with_finally.
  rewrite (bind_Return _ _ _ _ _ (enter_run label self w)).
  unfold try_finally.
  match goal with
  | |- context [body ?s1] =>
      destruct (Hbody s1) as [B1 B2]; destruct (body s1) as [o s2]
  end.
  cbn [fst snd old_stdout old_stderr] in B1, B2.
  destruct (exit_restores s2) as [R1 R2]. rewrite B1 in R1. rewrite B2 in R2.
  unfold bind. destruct (__exit__ [] s2) as [[v|e] s3]; cbn [fst snd] in *; now split.
Qed.

(** X13.  [get_status_message] on a context whose error sink was never
    installed raises [AttributeError], [None] having no [getvalue], and
    changes nothing. *)
Theorem get_status_message_before_enter (self : PushContext) (w : world) :
  my_stderr self = VNone ->
  get_status_message (self, w) = (Raise (no_attribute VNone "getvalue"), (self, w)).
Proof.
  intros Hnone. unfold get_status_message, bind, get_attr, gets, on_world. cbn [fst snd].
  now rewrite Hnone.
Qed.

(** X14.  [get_status_message] changes neither the context nor the
    process, and when it answers, the status is "succeeded" or it is
    "failed" with a message that is not empty. *)
Theorem get_status_message_answers (s : object) :
  snd (get_status_message s) = s /\
  forall status message,
    fst (get_status_message s) = Return (status, message) ->
    status = "succeeded" \/ (status = "failed" /\ message <> "").
Proof.
  destruct s as [self w].
  change (wp get_status_message
            (fun o s' => s' = (self, w) /\
               forall status message, o = Return (status, message) ->
                 status = "succeeded" \/ (status = "failed" /\ message <> ""))
            (self, w)).
  unfold get_status_message. repeat wp_step. cbn [fst snd].
  destruct (fst (getvalue (my_stderr self) w)) as [text|e] eqn:Htext; repeat wp_step;
    [|split; [reflexivity | discriminate]].
  destruct (truthy (VStr text)) eqn:Htruthy; repeat wp_step; cbn [fst snd].
  - rewrite Htext. repeat wp_step. split; [reflexivity|].
    intros status message [= <- <-]. right. split; [reflexivity|].
    intros ->. discriminate Htruthy.
  - destruct (fst (getvalue (my_stdout self) w)); repeat wp_step;
      (split; [reflexivity|]); [|discriminate].
    intros status message [= <- <-]. now left.
Qed.

End Properties.

(** * Runs of the samples *)

Section Runs.
#[local] Existing Instance ExactFloat.ops.

(** The six durations of the specification, each raising. *)
Example sec_to_hms_listed_durations :
  map (fun z => sec_to_hms (VInt z)) [0; 59; 60; 3599; 3600; 86399]
  = repeat (Raise precision_not_allowed) 6.
Proof. reflexivity. Qed.

(** With the hour field written [{:02d}] the same fields give the
    strings the specification lists. *)
Example two_digit_hour_field :
  map (fun z => str_format "{:02d}:{:02d}:{:02.0f}"
                  [VInt (z / 60 / 60); VInt (z / 60 mod 60); VInt (z mod 60)])
      [0; 59; 60; 3599; 3600; 86399]
  = map Return ["00:00:00"; "00:00:59"; "00:01:00"; "00:59:59"; "01:00:00"; "23:59:59"].
Proof. vm_compute. reflexivity. Qed.



Lemma push_exceptions_returns_answer :
  push_exceptions answer no_args fresh_process
    = (Return (VInt 42), snd (time_time fresh_process)) /\
  sent (snd (push_exceptions answer no_args fresh_process)) = [].
Proof.
  exact (push_exceptions_returns answer no_args fresh_process
           (snd (time_time fresh_process)) (VInt 42) eq_refl).
Defined.

(** C4 (the code departs from it).  [answer] returns 42 when called,
    yet the wrapper made by [push_success] returns nothing and sends
    nothing: with any number of frames left it raises
    [RecursionError], because its body calls the wrapper where it
    should call [fn]. *)
Theorem push_success_reports_nothing (depth : nat) :
  fst (fn_call answer no_args fresh_process) = Return (VInt 42) /\
  fst (push_success answer depth no_args fresh_process) = Raise recursion_error /\
  sent (snd (push_success answer depth no_args fresh_process)) = [].
Proof.
  rewrite push_success_overflows. cbn [fst snd]. rewrite clock_read_sent.
  repeat split.
Qed.

(** C6 (the code departs from it).  A block whose body raises
    [RuntimeError], run in the three ways there are.  Under the [with]
    statement the block is never entered: [__enter__] lacks its
    [block_label] and [TypeError] is raised.  With the methods called in
    sequence the exception skips [__exit__], and [sys.stdout] and
    [sys.stderr] stay the capture sinks at addresses 2 and 3 instead of
    the saved streams 0 and 1.  With the caller's [finally] around the
    body the streams are put back, but [__exit__] raises [ValueError]
    while building the title, and that exception is the one that
    propagates, not the body's. *)
Theorem raising_body_is_not_restored_and_reported :
  with_PushContext failing_body (__init__, fresh_process)
    = (Raise missing_block_label, (__init__, fresh_process)) /\
  (let r := called_in_sequence (VStr "job") failing_body (__init__, fresh_process) in
   fst r = Raise (Exn (OtherException "RuntimeError") "x") /\
   old_stdout (fst (snd r)) = VStream 0 /\ old_stderr (fst (snd r)) = VStream 1 /\
   sys_stdout (snd (snd r)) = VStream 2 /\ sys_stderr (snd (snd r)) = VStream 3 /\
   sent (snd (snd r)) = []) /\
  (let r := called_with_finally (VStr "job") failing_body (__init__, fresh_process) in
   fst r = Raise unknown_code_d_float /\
   sys_stdout (snd (snd r)) = VStream 0 /\ sys_stderr (snd (snd r)) = VStream 1 /\
   sent (snd (snd r)) = []).
Proof.
  split; [apply with_PushContext_cannot_enter|].
  cbv zeta. repeat split; reflexivity.
Qed.

Lemma status_of_wrote_oops :
  exists status message,
    get_status_message (fst wrote_oops, snd wrote_oops)
      = (Return (status, message), (fst wrote_oops, snd wrote_oops)) /\
    (status = "failed" <-> "oops" <> "") /\
    ("oops" <> "" -> message = "oops") /\
    ("oops" = "" -> status = "succeeded" /\ message = "").
Proof.
  exact (status_follows_captured_stderr (fst wrote_oops) (snd wrote_oops) 2 3 "" "oops"
           eq_refl eq_refl eq_refl eq_refl).
Defined.

Lemma status_of_entered :
  get_status_message (fst entered, snd entered)
    = (Return ("succeeded", ""), (fst entered, snd entered)).
Proof.
  exact (nothing_captured_is_success (fst entered) (snd entered) 2 3
           eq_refl eq_refl eq_refl eq_refl).
Defined.

Lemma exit_echoes_hello :
  sys_stdout (snd (snd (__exit__ [] (fst wrote_hello, snd wrote_hello)))) = VStream 0 /\
  sys_stderr (snd (snd (__exit__ [] (fst wrote_hello, snd wrote_hello)))) = VStream 1 /\
  ("" <> "" ->
     streams (snd (snd (__exit__ [] (fst wrote_hello, snd wrote_hello))))
       = <[1%nat := "" +:+ ""]> (streams (snd wrote_hello))) /\
  ("" = "" ->
     streams (snd (snd (__exit__ [] (fst wrote_hello, snd wrote_hello))))
       = <[0%nat := "" +:+ "hello"]> (streams (snd wrote_hello))).
Proof.
  exact (exit_echoes_to_restored_stream (fst wrote_hello) (snd wrote_hello)
           100%Q 0 1 2 3 "" "" "hello" ""
           eq_refl eq_refl eq_refl eq_refl eq_refl eq_refl eq_refl eq_refl eq_refl).
Defined.

(** The block of the specification's example: the body writes "hello",
    the methods are called in sequence.  The text is echoed to the real
    standard output, [ValueError] is raised, nothing is sent. *)
Example hello_block_sends_nothing :
  let r := called_in_sequence (VStr "job") (write_stdout "hello") (__init__, fresh_process) in
  fst r = Raise unknown_code_d_float /\
  streams (snd (snd r)) = ["hello"; ""; "hello"; ""] /\
  sys_stdout (snd (snd r)) = VStream 0 /\ sys_stderr (snd (snd r)) = VStream 1 /\
  sent (snd (snd r)) = [].
Proof. cbv zeta. repeat split; reflexivity. Qed.


Lemma enter_without_label :
  exists e, __enter__ [] (__init__, fresh_process) = (Raise e, (__init__, fresh_process)) /\
            exc_type e = TypeError.
Proof.
  apply (enter_needs_one_argument [] (__init__, fresh_process)). simpl. lia.
Defined.

Lemma exit_as_the_with_statement_calls_it :
  exists e, __exit__ [VNone; VNone; VNone] entered = (Raise e, entered) /\
            exc_type e = TypeError.
Proof.
  apply (exit_takes_no_argument [VNone; VNone; VNone] entered). discriminate.
Defined.

Lemma hello_and_oops_are_captured :
  let r := (__enter__ [VStr "job"] ;; write_stdout "hello" ;; write_stderr "oops")
             (__init__, fresh_process) in
  fst r = Return tt /\
  streams (snd (snd r)) !! 0%nat = Some "" /\
  streams (snd (snd r)) !! 1%nat = Some "" /\
  streams (snd (snd r)) !! length (streams fresh_process) = Some "hello" /\
  streams (snd (snd r)) !! S (length (streams fresh_process)) = Some "oops".
Proof.
  exact (writes_are_captured (VStr "job") __init__ fresh_process 0 1 "" "" "hello" "oops"
           eq_refl eq_refl eq_refl eq_refl).
Defined.

Lemma oops_is_echoed_and_hello_dropped :
  let r := called_in_sequence (VStr "job") (write_stdout "hello" ;; write_stderr "oops")
             (__init__, fresh_process) in
  fst r = Raise unknown_code_d_float /\
  sys_stdout (snd (snd r)) = VStream 0 /\ sys_stderr (snd (snd r)) = VStream 1 /\
  sent (snd (snd r)) = [] /\
  streams (snd (snd r)) !! 1%nat = Some "oops" /\
  streams (snd (snd r)) !! 0%nat = Some "".
Proof.
  destruct (captured_text_is_echoed_at_exit (VStr "job") __init__ fresh_process
              0 1 "" "" "hello" "oops" eq_refl eq_refl eq_refl eq_refl)
    as (Hraise & Hout & Herr & Hsent & _ & Hfailed).
  destruct Hfailed as [Hecho Hkept]; [discriminate|].
  exact (conj Hraise (conj Hout (conj Herr (conj Hsent (conj Hecho (Hkept (O_S 0))))))).
Defined.

Lemma finally_restores_after_failing_body :
  sys_stdout (snd (snd (called_with_finally (VStr "job") failing_body
                          (__init__, fresh_process)))) = VStream 0 /\
  sys_stderr (snd (snd (called_with_finally (VStr "job") failing_body
                          (__init__, fresh_process)))) = VStream 1.
Proof.
  exact (finally_restores_streams (VStr "job") failing_body __init__ fresh_process
           (fun s => conj eq_refl eq_refl)).
Defined.

Lemma status_of_new_context :
  get_status_message (__init__, fresh_process)
    = (Raise (no_attribute VNone "getvalue"), (__init__, fresh_process)).
Proof.
  exact (get_status_message_before_enter __init__ fresh_process eq_refl).
Defined.


Lemma push_exceptions_on_partial_boom :
  exists a, fst (push_exceptions partial_boom no_args fresh_process) = Raise a /\
            exc_type a = AttributeError /\
            sent (snd (push_exceptions partial_boom no_args fresh_process)) = [].
Proof.
  exact (push_exceptions_nameless_callable partial_boom no_args fresh_process
           (snd (time_time fresh_process)) (Exn ValueError "boom")
           eq_refl eq_refl (or_intror eq_refl)).
Defined.

End Runs.
